(** * PushPut: the mailbox audit-settings collector (script.py)

    A shallow embedding of [script.py].  The script reads the rows of
    [mailboxes.csv], skips the first one, starts one coroutine
    [get_mailbox_audit_settings] per remaining row, waits for all of them with
    [asyncio.gather], and writes the results that are not [None] to
    [audit_settings.csv] with [csv.DictWriter].

    What is modelled, and how:
    - Python values ([pyval]) with [str], [repr] and truthiness, as far as the
      script uses them.  A Python [str] is a Rocq [string]: text over the code
      points below 256.  A [float] is carried by its [repr].
    - Exceptions ([exn]) with the one fact [except Exception] looks at: whether
      the class derives from [Exception].
    - The Graph client is a parameter: what awaiting [client.get(path)] gives,
      an exception or a response, whose [json()] raises or gives a value.
    - Coroutines are trees ([coro]) of the two effects the script has inside
      its tasks, awaiting a request and printing; [asyncio.gather] runs every
      task up to its first suspension in submission order and resumes them in
      a completion order taken from a schedule.
    - The input file is the list of rows [csv.reader] yields from it (or is
      missing); the output file is the text written to it.

    What the environment is taken to do: an awaited [client.get] suspends its
    task before it gives its outcome; an input file that exists can be read
    and decoded; the output file can be opened, and every text can be written
    to it.  Failures of the file system other than the missing input file
    are outside the model. *)

From Stdlib Require Import ZArith NArith Ascii String.
From stdpp Require Import base list strings pretty.

Set Warnings "-register-all".

Local Open Scope string_scope.
Local Open Scope list_scope.

(** ** Characters the script's output depends on *)

Definition dquote : ascii := "034"%char.
Definition squote : ascii := "039"%char.
Definition backslash : ascii := "092"%char.
Definition comma : ascii := "044"%char.
Definition char_tab : ascii := "009"%char.
Definition char_lf : ascii := "010"%char.
Definition char_cr : ascii := "013"%char.

Definition str1 (c : ascii) : string := String c EmptyString.

Fixpoint has_char (c : ascii) (s : string) : bool :=
  match s with
  | EmptyString => false
  | String d s' => Ascii.eqb c d || has_char c s'
  end.

(** ** Python values *)

Module Py.

(** The values [json()] can return and the script builds: [None], [bool],
    [int], [float] (by its [repr]), [str], [list], and [dict] with string
    keys, in insertion order. *)
Inductive pyval : Type :=
| PyNone
| PyBool (b : bool)
| PyInt (z : Z)
| PyFloat (shown : string)
| PyStr (s : string)
| PyList (items : list pyval)
| PyDict (entries : list (string * pyval)).

(** [type(v).__name__] *)
Definition type_name (v : pyval) : string :=
  match v with
  | PyNone => "NoneType"
  | PyBool _ => "bool"
  | PyInt _ => "int"
  | PyFloat _ => "float"
  | PyStr _ => "str"
  | PyList _ => "list"
  | PyDict _ => "dict"
  end.

Definition is_dict (v : pyval) : bool :=
  match v with PyDict _ => true | _ => false end.

(** [d.get(key)] on a dict: the value, or [None] when the key is absent. *)
Fixpoint dict_get (entries : list (string * pyval)) (key : string) : pyval :=
  match entries with
  | [] => PyNone
  | (k, v) :: rest => if String.eqb k key then v else dict_get rest key
  end.

(** Truth value testing ([if result]). *)
Definition truthy (v : pyval) : bool :=
  match v with
  | PyNone => false
  | PyBool b => b
  | PyInt z => negb (z =? 0)%Z
  | PyFloat shown => negb (String.eqb shown "0.0" || String.eqb shown "-0.0")
  | PyStr s => negb (String.eqb s EmptyString)
  | PyList items => match items with [] => false | _ => true end
  | PyDict entries => match entries with [] => false | _ => true end
  end.

(** *** [repr] of a [str]

    CPython's [unicode_repr]: double quotes are used when the text has a
    single quote and no double quote, single quotes otherwise; the quote and
    the backslash are escaped; tab, line feed and carriage return have their
    letters; every other character that is not printable is written
    [\xNN]. *)

Definition hex_digit (n : N) : ascii :=
  match n with
  | 0 => "0" | 1 => "1" | 2 => "2" | 3 => "3" | 4 => "4" | 5 => "5"
  | 6 => "6" | 7 => "7" | 8 => "8" | 9 => "9" | 10 => "a" | 11 => "b"
  | 12 => "c" | 13 => "d" | 14 => "e" | _ => "f"
  end%N%char.

(** Printable code points below 256: the ASCII graphic characters and the
    space, and the Latin-1 graphic characters ([0xa0] is a separator and
    [0xad] a format character). *)
Definition isprintable (c : ascii) : bool :=
  let n := N_of_ascii c in
  ((32 <=? n) && (n <=? 126) || (161 <=? n) && negb (n =? 173))%N.

Definition repr_quote (s : string) : ascii :=
  if has_char squote s && negb (has_char dquote s) then dquote else squote.

Definition repr_char (quote c : ascii) : string :=
  if Ascii.eqb c quote || Ascii.eqb c backslash then String backslash (str1 c)
  else if Ascii.eqb c char_tab then String backslash "t"
  else if Ascii.eqb c char_lf then String backslash "n"
  else if Ascii.eqb c char_cr then String backslash "r"
  else if isprintable c then str1 c
  else
    let n := N_of_ascii c in
    String backslash
      (String "x" (String (hex_digit (n / 16)) (str1 (hex_digit (n mod 16))))).

Fixpoint repr_chars (quote : ascii) (s : string) : string :=
  match s with
  | EmptyString => EmptyString
  | String c s' => repr_char quote c +:+ repr_chars quote s'
  end.

Definition repr_str (s : string) : string :=
  let q := repr_quote s in
  String q (repr_chars q s +:+ str1 q).

(** *** [repr] and [str] *)

Fixpoint repr (v : pyval) : string :=
  match v with
  | PyNone => "None"
  | PyBool true => "True"
  | PyBool false => "False"
  | PyInt z => pretty z
  | PyFloat shown => shown
  | PyStr s => repr_str s
  | PyList items => "[" +:+ String.concat ", " (map repr items) +:+ "]"
  | PyDict entries =>
      "{" +:+
      String.concat ", "
        (map (fun kv => repr_str (fst kv) +:+ ": " +:+ repr (snd kv)) entries)
      +:+ "}"
  end.

Definition str (v : pyval) : string :=
  match v with
  | PyStr s => s
  | _ => repr v
  end.

End Py.
Import Py.

(** ** Exceptions *)

(** The classes the script meets.  [except Exception] catches every class but
    those that derive from [BaseException] only ([KeyboardInterrupt],
    [SystemExit], [asyncio.CancelledError], ...). *)
Inductive exn_class : Type :=
| FileNotFoundError
| StopIteration
| RuntimeError
| AttributeError
| ValueError
| OtherException (name : string)
| OtherBaseException (name : string).

Definition derives_Exception (c : exn_class) : bool :=
  match c with
  | OtherBaseException _ => false
  | _ => true
  end.

(** An exception: its class and [str(e)]. *)
Record exn : Type := Exn { exn_class_of : exn_class; exn_text : string }.

Definition is_StopIteration (e : exn) : bool :=
  match exn_class_of e with StopIteration => true | _ => false end.

(** ** The Graph client *)

(** What [client.get] resolves to: the script reads nothing of it but
    [json()], which raises or returns the decoded body.  The status code is
    kept to state what the script does with it (nothing). *)
Record response : Type :=
  Response { status_code : Z; json : exn + pyval }.

Definition is_2xx (r : response) : bool :=
  ((200 <=? status_code r) && (status_code r <? 300))%Z.

(** The outcome of [await client.get(path)]. *)
Definition graph_client : Type := string -> exn + response.

(** ** Coroutines *)

(** A coroutine body as a tree: it returns, raises, awaits
    [client.get(path)] and goes on with the outcome, or prints a line. *)
Inductive coro (A : Type) : Type :=
| Return (a : A)
| Raise (e : exn)
| AwaitGet (path : string) (k : exn + response -> coro A)
| PrintLine (line : string) (k : coro A).
Arguments Return {A} a.
Arguments Raise {A} e.
Arguments AwaitGet {A} path k.
Arguments PrintLine {A} line k.

Fixpoint coro_bind {A B} (f : A -> coro B) (c : coro A) : coro B :=
  match c with
  | Return a => f a
  | Raise e => Raise e
  | AwaitGet path k => AwaitGet path (fun o => coro_bind f (k o))
  | PrintLine line k => PrintLine line (coro_bind f k)
  end.

#[export] Instance coro_ret : MRet coro := fun _ a => Return a.
#[export] Instance coro_mbind : MBind coro := fun _ _ f c => coro_bind f c.

(** [try: body / except Exception as e: handler e] *)
Fixpoint try_except_Exception {A} (body : coro A) (handler : exn -> coro A)
  : coro A :=
  match body with
  | Return a => Return a
  | Raise e =>
      if derives_Exception (exn_class_of e) then handler e else Raise e
  | AwaitGet path k =>
      AwaitGet path (fun o => try_except_Exception (k o) handler)
  | PrintLine line k => PrintLine line (try_except_Exception k handler)
  end.

(** [await client.get(path)] *)
Definition await_get (path : string) : coro response :=
  AwaitGet path (fun o => match o with inl e => Raise e | inr r => Return r end).

(** A call that raises or returns without suspending. *)
Definition call {A} (r : exn + A) : coro A :=
  match r with inl e => Raise e | inr a => Return a end.

Definition print (line : string) : coro unit := PrintLine line (Return tt).

(** The [AttributeError] of [value.attr] on a value that has no such
    attribute. *)
Definition no_attribute (v : pyval) (attr : string) : exn :=
  Exn AttributeError
    ("'" +:+ type_name v +:+ "' object has no attribute '" +:+ attr +:+ "'").

(** [settings.get(key)]: the dict method; any other value has no attribute
    [get]. *)
Definition method_get (settings : pyval) (key : string) : exn + pyval :=
  match settings with
  | PyDict entries => inr (dict_get entries key)
  | _ => inl (no_attribute settings "get")
  end.

(** ** [get_mailbox_audit_settings] *)

Definition request_path (user_principal_name : pyval) : string :=
  "/users/" +:+ str user_principal_name +:+ "/mailboxSettings".

Definition error_line (user_principal_name : pyval) (e : exn) : string :=
  "Error getting settings for " +:+ str user_principal_name +:+ ": "
  +:+ exn_text e.

Definition get_mailbox_audit_settings (user_principal_name : pyval)
  : coro pyval :=
  try_except_Exception
    (result ← await_get (request_path user_principal_name);
     settings ← call (json result);
     audit_enabled ← call (method_get settings "auditEnabled");
     audit_log_age_limit ← call (method_get settings "auditLogAgeLimit");
     mret (PyDict [("Mailbox", user_principal_name);
                   ("AuditEnabled", audit_enabled);
                   ("AuditLogAgeLimit", audit_log_age_limit)]))
    (fun e =>
       _ ← print (error_line user_principal_name e);
       mret PyNone).

(** ** The CSV writer *)

Module Csv.

Definition crlf : string := String char_cr (str1 char_lf).

(** A field is quoted when it holds the delimiter, the quote character or a
    character of the line terminator; quote characters inside are
    doubled (the [excel] dialect with [QUOTE_MINIMAL]). *)
Definition needs_quote (s : string) : bool :=
  has_char comma s || has_char dquote s || has_char char_cr s
  || has_char char_lf s.

Fixpoint double_quotes (s : string) : string :=
  match s with
  | EmptyString => EmptyString
  | String c s' =>
      if Ascii.eqb c dquote then String dquote (String dquote (double_quotes s'))
      else String c (double_quotes s')
  end.

Definition quoted (s : string) : string :=
  String dquote (double_quotes s +:+ str1 dquote).

(** The text of a field: [None] is empty, a [str] is itself, anything else
    is its [str()]. *)
Definition field_text (v : pyval) : string :=
  match v with
  | PyNone => EmptyString
  | _ => str v
  end.

Definition field (v : pyval) : string :=
  let s := field_text v in
  if needs_quote s then quoted s else s.

(** [writer.writerow(fields)]: the line written.  A record of one empty
    field is written as an empty quoted field. *)
Definition writerow (fields : list pyval) : string :=
  let line := String.concat (str1 comma) (field <$> fields) in
  (match fields, line with
   | [_], EmptyString => quoted EmptyString
   | _, _ => line
   end) +:+ crlf.

End Csv.

(** ** [csv.DictWriter] *)

Definition fieldnames : list string :=
  ["Mailbox"; "AuditEnabled"; "AuditLogAgeLimit"].

(** [rowdict.get(key, restval)] with the default [restval] (the empty
    string). *)
Fixpoint dict_get_restval (entries : list (string * pyval)) (key : string)
  : pyval :=
  match entries with
  | [] => PyStr EmptyString
  | (k, v) :: rest => if String.eqb k key then v else dict_get_restval rest key
  end.

(** [DictWriter._dict_to_list] when extra keys raise: a key outside
    [fieldnames] is a [ValueError]; otherwise the values in [fieldnames]
    order. *)
Definition dict_to_list (rowdict : pyval) : exn + list pyval :=
  match rowdict with
  | PyDict entries =>
      let wrong_fields :=
        filter (fun k => k ∉ fieldnames) (fst <$> entries) in
      match wrong_fields with
      | [] => inr ((dict_get_restval entries) <$> fieldnames)
      | _ =>
          inl (Exn ValueError
                 ("dict contains fields not in fieldnames: "
                  +:+ String.concat ", " (repr_str <$> wrong_fields)))
      end
  | _ => inl (no_attribute rowdict "keys")
  end.

(** [writer.writeheader()] writes the field names as a row. *)
Definition header_line : string := Csv.writerow (PyStr <$> fieldnames).

(** ** The program *)

Definition input_csv : string := "mailboxes.csv".
Definition output_csv : string := "audit_settings.csv".

(** What a run leaves behind: the calls to [client.get] and the lines
    printed, in order, and the text of [audit_settings.csv] once the script
    has opened it ([None]: never opened). *)
Inductive event : Type :=
| Requested (path : string)
| Printed (line : string).

Record state : Type := State { events : list event; output_file : option string }.

Definition initial_state : state := State [] None.

(** Sequential code that raises or returns, over the state. *)
Definition prog (A : Type) : Type := state -> (exn + A) * state.

#[export] Instance prog_ret : MRet prog := fun _ a st => (inr a, st).
#[export] Instance prog_mbind : MBind prog := fun _ _ f m st =>
  match m st with
  | (inl e, st') => (inl e, st')
  | (inr a, st') => f a st'
  end.

Definition raise {A} (e : exn) : prog A := fun st => (inl e, st).

(** Opening [output_csv] for writing truncates the file. *)
Definition open_write : prog unit := fun st =>
  (inr tt, State (events st) (Some EmptyString)).

Definition write (text : string) : prog unit := fun st =>
  (inr tt, State (events st) (Some (default EmptyString (output_file st) +:+ text))).

(** A CSV row as [csv.reader] yields it, and as the Python list it is. *)
Definition row : Type := list string.
Definition row_value (r : row) : pyval := PyList (PyStr <$> r).

(** ** Running tasks: [asyncio.gather] *)

(** The order in which the tasks complete is not the program's choice.  A
    schedule gives, for every task, the place it takes among the tasks
    submitted after it: [0] completes before all of them.  Every list of
    numbers is a schedule, and every order of completion has one. *)
Fixpoint insert_at {X} (n : nat) (x : X) (l : list X) : list X :=
  match n, l with
  | S n', y :: l' => y :: insert_at n' x l'
  | _, _ => x :: l
  end.

Fixpoint completion_order {X} (sched : list nat) (xs : list X) : list X :=
  match xs with
  | [] => []
  | x :: xs' => insert_at (hd 0 sched) x (completion_order (tl sched) xs')
  end.

(** The completions in order, up to the first task that raises: its
    exception is what [gather] raises, and the tasks still pending are
    cancelled with the run. *)
Fixpoint until_failure {A} (done : list (list event * (exn + A)))
  : list event * option exn :=
  match done with
  | [] => ([], None)
  | (evs, inl e) :: _ => (evs, Some e)
  | (evs, inr _) :: rest =>
      let '(evs', failure) := until_failure rest in (evs ++ evs', failure)
  end.

Fixpoint all_results {A} (outcomes : list (exn + A)) : exn + list A :=
  match outcomes with
  | [] => inr []
  | inl e :: _ => inl e
  | inr a :: rest =>
      match all_results rest with
      | inl e => inl e
      | inr l => inr (a :: l)
      end
  end.

Section Collector.

Variable client : graph_client.
Variable input_file : option (list row).
Variable sched : list nat.

(** A new task runs until it first suspends: at [await client.get(path)]
    the call has been made and the task waits for the outcome. *)
Fixpoint first_step {A} (c : coro A) : list event * coro A :=
  match c with
  | PrintLine line k =>
      let '(evs, c') := first_step k in (Printed line :: evs, c')
  | AwaitGet path k => ([Requested path], k (client path))
  | _ => ([], c)
  end.

(** A task resumed with the outcome runs to its end. *)
Fixpoint resume {A} (c : coro A) : list event * (exn + A) :=
  match c with
  | Return a => ([], inr a)
  | Raise e => ([], inl e)
  | PrintLine line k =>
      let '(evs, r) := resume k in (Printed line :: evs, r)
  | AwaitGet path k =>
      let '(evs, r) := resume (k (client path)) in (Requested path :: evs, r)
  end.

(** [await asyncio.gather] of the tasks: they start in submission order,
    complete in the order of the schedule, and the results come back in
    submission order. *)
Definition gather {A} (tasks : list (coro A)) : prog (list A) := fun st =>
  let started := first_step <$> tasks in
  let finished := (fun s => resume (snd s)) <$> started in
  let '(evs, failure) := until_failure (completion_order sched finished) in
  let st' :=
    State (events st ++ concat (fst <$> started) ++ evs) (output_file st) in
  match failure with
  | Some e => (inl e, st')
  | None =>
      match all_results (snd <$> finished) with
      | inl e => (inl e, st')
      | inr results => (inr results, st')
      end
  end.

(** Opening [input_csv] for reading and [csv.reader(f)]: the rows still to
    come. *)
Definition open_reader : prog (list row) :=
  match input_file with
  | None =>
      raise (Exn FileNotFoundError
               ("[Errno 2] No such file or directory: " +:+ repr_str input_csv))
  | Some rows => mret rows
  end.

(** [next(reader)]: the next row and the reader after it. *)
Definition next (reader : list row) : prog (row * list row) :=
  match reader with
  | [] => raise (Exn StopIteration EmptyString)
  | r :: rest => mret (r, rest)
  end.

(** [writer.writerows(rows)] writes row after row; a row that cannot be
    written stops it. *)
Fixpoint writerows (rows : list pyval) : prog unit :=
  match rows with
  | [] => mret tt
  | rowdict :: rest =>
      match dict_to_list rowdict with
      | inl e => raise e
      | inr fields => _ ← write (Csv.writerow fields); writerows rest
      end
  end.

Definition main : prog unit :=
  reader ← open_reader;
  '(_, reader) ← next reader;                              (* Skip header *)
  let mailboxes := row_value <$> reader in
  let tasks := get_mailbox_audit_settings <$> mailboxes in
  results ← gather tasks;
  _ ← open_write;
  _ ← write header_line;
  (* Filter out any None results (errors) *)
  writerows (filter (fun result => truthy result = true) results).

(** [asyncio.run(main())]: a [StopIteration] that leaves the coroutine is
    replaced by a [RuntimeError]. *)
Definition run : (exn + unit) * state :=
  match main initial_state with
  | (inl e, st) =>
      (inl (if is_StopIteration e
            then Exn RuntimeError "coroutine raised StopIteration" else e),
       st)
  | done => done
  end.

End Collector.

(** ** What a fetch comes to *)

(** The notions the statements below are about, read off the client: what the
    [try] block of [get_mailbox_audit_settings] ends with for an identifier,
    the record built from a body, and the rows of a batch that are written. *)

(** The [try] block ends with the decoded body when it is a dict, and with
    the exception raised otherwise: by [client.get], by [json()], or by
    [settings.get] on a body that is not a dict. *)
Definition fetch (client : graph_client) (user_principal_name : pyval)
  : exn + list (string * pyval) :=
  match client (request_path user_principal_name) with
  | inl e => inl e
  | inr result =>
      match json result with
      | inl e => inl e
      | inr (PyDict entries) => inr entries
      | inr settings => inl (no_attribute settings "get")
      end
  end.

Definition audit_record (user_principal_name : pyval)
    (settings : list (string * pyval)) : pyval :=
  PyDict [("Mailbox", user_principal_name);
          ("AuditEnabled", dict_get settings "auditEnabled");
          ("AuditLogAgeLimit", dict_get settings "auditLogAgeLimit")].

(** The fields of the row written for a record, in [fieldnames] order. *)
Definition audit_row (user_principal_name : pyval)
    (settings : list (string * pyval)) : list pyval :=
  [user_principal_name;
   dict_get settings "auditEnabled";
   dict_get settings "auditLogAgeLimit"].

(** The value a task returns when nothing escapes it. *)
Definition task_value (client : graph_client) (u : pyval) : pyval :=
  match fetch client u with
  | inr settings => audit_record u settings
  | inl _ => PyNone
  end.

(** The exception escapes [except Exception]. *)
Definition escapes (client : graph_client) (u : pyval) : bool :=
  match fetch client u with
  | inl e => negb (derives_Exception (exn_class_of e))
  | inr _ => false
  end.

(** No task of the batch lets an exception escape. *)
Definition contained (client : graph_client) (data : list row) : bool :=
  forallb (fun r => negb (escapes client (row_value r))) data.

(** The input rows whose fetch gives a record, each with the fields written
    for it, in input order. *)
Definition successes (client : graph_client) (data : list row)
  : list (row * list pyval) :=
  omap (fun r =>
          match fetch client (row_value r) with
          | inr settings => Some (r, audit_row (row_value r) settings)
          | inl _ => None
          end) data.

Definition csv_lines (rows : list (list pyval)) : string :=
  String.concat EmptyString (Csv.writerow <$> rows).

Definition requests_of (evs : list event) : list string :=
  omap (fun ev => match ev with Requested p => Some p | Printed _ => None end)
    evs.

Definition printed_of (evs : list event) : list string :=
  omap (fun ev => match ev with Printed l => Some l | Requested _ => None end)
    evs.

(** What a task does once its request is answered: it returns the record,
    or prints the diagnostic and returns [None], or lets the exception
    through. *)
Definition settle (client : graph_client) (u : pyval)
  : list event * (exn + pyval) :=
  match fetch client u with
  | inr settings => ([], inr (audit_record u settings))
  | inl e =>
      if derives_Exception (exn_class_of e)
      then ([Printed (error_line u e)], inr PyNone)
      else ([], inl e)
  end.

(** A completed task that returned a value. *)
Definition returned {A} (done : list event * (exn + A)) : Prop :=
  ∃ a, snd done = inr a.

(** The first character of a text. *)
Definition head_char (s : string) : option ascii :=
  match s with
  | EmptyString => None
  | String c _ => Some c
  end.

(** ** The end-to-end scenario and other concrete runs *)

Module Scenario.

Definition alice : row := ["alice@x.com"].
Definition bob : row := ["bob@x.com"].
Definition header : row := ["Mailbox"].
Definition data : list row := [alice; bob].
Definition input : list row := header :: data.

Definition alice_settings : list (string * pyval) :=
  [("auditEnabled", PyBool true); ("auditLogAgeLimit", PyStr "90")].
Definition alice_body : pyval := PyDict alice_settings.

Definition not_found : exn :=
  Exn (OtherException "HTTPError") "404 Client Error: Not Found".

(** The remote service answers the request the script makes for alice's
    row and raises a 404 for every other one. *)
Definition client : graph_client := fun path =>
  if String.eqb path (request_path (row_value alice))
  then inr (Response 200 (inr alice_body))
  else inl not_found.

(** The remote service knows alice by her address. *)
Definition client_by_address : graph_client := fun path =>
  if String.eqb path "/users/alice@x.com/mailboxSettings"
  then inr (Response 200 (inr alice_body))
  else inl not_found.

(** The line the scenario expects for alice. *)
Definition expected_output : string :=
  header_line +:+ "alice@x.com,True,90" +:+ Csv.crlf.

(** A client that answers every request with a 404 response carrying a
    JSON error object, and raises nothing. *)
Definition error_body : pyval :=
  PyDict [("error", PyDict [("code", PyStr "ResourceNotFound")])].
Definition client_404 : graph_client := fun _ =>
  inr (Response 404 (inr error_body)).

(** A client that answers every request with a 200 response whose body is
    a JSON list. *)
Definition client_list : graph_client := fun _ =>
  inr (Response 200 (inr (PyList []))).

(** A client that answers every request with a 200 response and an empty
    JSON object. *)
Definition client_empty : graph_client := fun _ =>
  inr (Response 200 (inr (PyDict []))).

End Scenario.

(** ** Further notions *)


(** Two clients give the same answers: they raise the same exceptions, and
    the responses they return have the same [json()].  Nothing is asked of
    the status codes. *)
Definition same_answers (client1 client2 : graph_client) : Prop :=
  ∀ path,
    match client1 path, client2 path with
    | inl e1, inl e2 => e1 = e2
    | inr result1, inr result2 => json result1 = json result2
    | _, _ => False
    end.

(** The path of a user known by a principal name. *)
Definition user_path (user_principal_name : string) : string :=
  "/users/" +:+ user_principal_name +:+ "/mailboxSettings".

Module Cases.

(** The remote service times out for every mailbox. *)
Definition timed_out : exn := Exn (OtherException "TimeoutError") "timed out".
Definition client_down : graph_client := fun _ => inl timed_out.

(** The run is cancelled while bob's request is pending. *)
Definition cancelled : exn := Exn (OtherBaseException "CancelledError") EmptyString.
Definition client_cancelled : graph_client := fun path =>
  if String.eqb path (request_path (row_value Scenario.bob))
  then inl cancelled
  else inr (Response 200 (inr Scenario.alice_body)).

(** The error object of [Scenario.client_404], sent with status 200. *)
Definition client_200 : graph_client := fun _ =>
  inr (Response 200 (inr Scenario.error_body)).

Definition carol : row := ["carol@x.com"].

End Cases.

(** * Properties *)

(** ** The definitions on concrete values *)

Example str_of_row : str (row_value ["a"; "b"]) = "['a', 'b']".
Proof. vm_compute. reflexivity. Qed.

Example repr_str_with_quote :
  repr_str "it's" = String dquote ("it's" +:+ str1 dquote).
Proof. vm_compute. reflexivity. Qed.

Example repr_str_control :
  repr_str (String char_lf (str1 "127"%char))
  = String squote (String backslash ("n" +:+ String backslash ("x7f'"))).
Proof. vm_compute. reflexivity. Qed.

Example str_of_int : str (PyInt (-90)) = "-90".
Proof. vm_compute. reflexivity. Qed.

Example request_path_of_row :
  request_path (row_value ["alice@x.com"])
  = "/users/['alice@x.com']/mailboxSettings".
Proof. vm_compute. reflexivity. Qed.

Example field_with_comma :
  Csv.field (row_value ["a"; "b"]) = Csv.quoted "['a', 'b']".
Proof. vm_compute. reflexivity. Qed.

Example header_line_text :
  header_line = "Mailbox,AuditEnabled,AuditLogAgeLimit" +:+ Csv.crlf.
Proof. vm_compute. reflexivity. Qed.

Example completion_order_example :
  completion_order [2; 0; 1] [1; 2; 3; 4] = [2; 4; 1; 3].
Proof. reflexivity. Qed.

(** With two schedules the diagnostics of a batch come in two orders; the
    results and the output file are the same. *)
Example schedules_differ_in_log_only :
  printed_of (events (snd (run Scenario.client_list (Some Scenario.input) [])))
  = ["Error getting settings for ['alice@x.com']: 'list' object has no attribute 'get'";
     "Error getting settings for ['bob@x.com']: 'list' object has no attribute 'get'"]
  ∧ printed_of
      (events (snd (run Scenario.client_list (Some Scenario.input) [1%nat])))
    = ["Error getting settings for ['bob@x.com']: 'list' object has no attribute 'get'";
       "Error getting settings for ['alice@x.com']: 'list' object has no attribute 'get'"].
Proof. split; vm_compute; reflexivity. Qed.

(** ** Strings *)

Lemma string_app_cons (x : ascii) (a b : string) :
  String x a +:+ b = String x (a +:+ b).
Proof. reflexivity. Qed.

Lemma string_app_assoc (a b c : string) : (a +:+ b) +:+ c = a +:+ b +:+ c.
Proof.
  induction a as [|x a IH]; [reflexivity |].
  by rewrite !string_app_cons, IH.
Qed.

Lemma string_app_nil_r (a : string) : a +:+ EmptyString = a.
Proof.
  induction a as [|x a IH]; [reflexivity |].
  by rewrite string_app_cons, IH.
Qed.

Lemma string_app_inv_head (a b c : string) : a +:+ b = a +:+ c → b = c.
Proof.
  induction a as [|x a IH]; [done |].
  rewrite !string_app_cons. intros [= H]. auto.
Qed.

Lemma csv_lines_cons (fields : list pyval) (rows : list (list pyval)) :
  csv_lines (fields :: rows) = Csv.writerow fields +:+ csv_lines rows.
Proof.
  destruct rows as [|fields' rows]; unfold csv_lines; cbn [fmap list_fmap].
  - by rewrite string_app_nil_r.
  - reflexivity.
Qed.

(** ** Schedules *)

Lemma insert_at_perm {X} (n : nat) (x : X) (l : list X) :
  insert_at n x l ≡ₚ x :: l.
Proof.
  revert n. induction l as [|y l IH]; intros [|n]; simpl; try reflexivity.
  rewrite IH. apply Permutation_swap.
Qed.

Lemma completion_order_perm {X} (sched : list nat) (xs : list X) :
  completion_order sched xs ≡ₚ xs.
Proof.
  revert sched. induction xs as [|x xs IH]; intros sched; simpl.
  - reflexivity.
  - by rewrite insert_at_perm, IH.
Qed.


(** ** Completions *)

Lemma until_failure_None {A} (done : list (list event * (exn + A))) :
  snd (until_failure done) = None ↔ Forall returned done.
Proof.
  induction done as [|[evs [e|a]] done IH]; simpl.
  - split; [constructor | done].
  - split; [done |]. intros H. inversion H as [|? ? [a Ha] ?]. done.
  - destruct (until_failure done) as [evs' failure]; simpl in *.
    rewrite IH. split.
    + intros H. constructor; [by exists a | done].
    + intros H. by inversion H.
Qed.

Lemma all_results_inr {A} (results : list A) :
  all_results (inr <$> results) = inr results.
Proof. induction results as [|a l IH]; csimpl; [done | by rewrite IH]. Qed.

Lemma until_failure_requests {A} (done : list (list event * (exn + A))) :
  Forall (λ d, requests_of (fst d) = []) done →
  requests_of (fst (until_failure done)) = [].
Proof.
  induction 1 as [|[evs [e|a]] done Hd _ IH]; simpl in *; [done | done |].
  destruct (until_failure done) as [evs' failure]; simpl in *.
  unfold requests_of in *. by rewrite omap_app, Hd, IH.
Qed.

Lemma until_failure_Some {A} (done : list (list event * (exn + A))) (e : exn) :
  snd (until_failure done) = Some e → ∃ d, d ∈ done ∧ snd d = inl e.
Proof.
  induction done as [|[evs [e'|a]] done IH]; simpl; [done | |].
  - intros [= ->]. eexists. split; [apply list_elem_of_here | done].
  - destruct (until_failure done) as [evs' failure]; simpl in *.
    intros (d & Hd & He)%IH. exists d. split; [by apply list_elem_of_further | done].
Qed.

(** ** One task *)

Lemma task_first_step (client : graph_client) (u : pyval) :
  fst (first_step client (get_mailbox_audit_settings u))
  = [Requested (request_path u)].
Proof. reflexivity. Qed.

Lemma task_resumed (client : graph_client) (u : pyval) :
  resume client (snd (first_step client (get_mailbox_audit_settings u)))
  = settle client u.
Proof.
  unfold settle, fetch, get_mailbox_audit_settings. cbn.
  destruct (client (request_path u)) as [e|[status [e|settings]]]; cbn.
  - by destruct (derives_Exception (exn_class_of e)).
  - by destruct (derives_Exception (exn_class_of e)).
  - by destruct settings.
Qed.

(** A task run on its own, from its start to its end. *)
Lemma task_run (client : graph_client) (u : pyval) :
  resume client (get_mailbox_audit_settings u)
  = (Requested (request_path u) :: fst (settle client u),
     snd (settle client u)).
Proof.
  unfold settle, fetch, get_mailbox_audit_settings. cbn.
  destruct (client (request_path u)) as [e|[status [e|settings]]]; cbn.
  - by destruct (derives_Exception (exn_class_of e)).
  - by destruct (derives_Exception (exn_class_of e)).
  - by destruct settings.
Qed.

Lemma settle_printed (client : graph_client) (u : pyval) :
  requests_of (fst (settle client u)) = [].
Proof.
  unfold settle. destruct (fetch client u) as [e|d]; [|done].
  by destruct (derives_Exception (exn_class_of e)).
Qed.

Lemma settle_contained (client : graph_client) (u : pyval) :
  escapes client u = false →
  snd (settle client u) = inr (task_value client u).
Proof.
  unfold escapes, settle, task_value.
  destruct (fetch client u) as [e|d]; [|done].
  by destruct (derives_Exception (exn_class_of e)).
Qed.

Lemma settle_returned (client : graph_client) (u : pyval) :
  returned (settle client u) → escapes client u = false.
Proof.
  unfold returned, escapes, settle.
  destruct (fetch client u) as [e|d]; [|done].
  destruct (derives_Exception (exn_class_of e)); [done|]. by intros [a ?].
Qed.

(** ** The batch *)

Lemma started_requests (client : graph_client) (mailboxes : list pyval) :
  concat (fst <$> (first_step client <$>
                     (get_mailbox_audit_settings <$> mailboxes)))
  = (λ u, Requested (request_path u)) <$> mailboxes.
Proof.
  induction mailboxes as [|u l IH]; [done |].
  rewrite !fmap_cons. cbn [concat]. by rewrite IH, task_first_step.
Qed.

Lemma started_resumed (client : graph_client) (mailboxes : list pyval) :
  (λ s, resume client (snd s)) <$>
    (first_step client <$> (get_mailbox_audit_settings <$> mailboxes))
  = settle client <$> mailboxes.
Proof.
  induction mailboxes as [|u l IH]; [done |].
  rewrite !fmap_cons. by rewrite IH, task_resumed.
Qed.

Lemma gather_tasks (client : graph_client) (sched : list nat)
    (mailboxes : list pyval) (st : state) :
  gather client sched (get_mailbox_audit_settings <$> mailboxes) st =
  let done :=
    until_failure (completion_order sched (settle client <$> mailboxes)) in
  let st' :=
    State (events st ++ ((λ u, Requested (request_path u)) <$> mailboxes)
           ++ fst done) (output_file st) in
  match snd done with
  | Some e => (inl e, st')
  | None =>
      match all_results (snd <$> (settle client <$> mailboxes)) with
      | inl e => (inl e, st')
      | inr results => (inr results, st')
      end
  end.
Proof.
  unfold gather. rewrite started_requests, started_resumed.
  by destruct (until_failure _) as [evs [e|]].
Qed.

Lemma contained_outcomes (client : graph_client) (data : list row) :
  contained client data = true →
  snd <$> (settle client <$> (row_value <$> data))
  = inr <$> (task_value client <$> (row_value <$> data)).
Proof.
  unfold contained. induction data as [|r data IH]; csimpl; [done |].
  intros [Hr Hdata]%andb_prop. apply negb_true_iff in Hr.
  by rewrite IH, settle_contained.
Qed.

Lemma returned_contained (client : graph_client) (data : list row) :
  Forall returned (settle client <$> (row_value <$> data)) →
  contained client data = true.
Proof.
  unfold contained. induction data as [|r data IH]; csimpl; [done |].
  intros H. inversion H as [|? ? Hr Hdata]; subst.
  apply settle_returned in Hr. rewrite Hr. simpl. auto.
Qed.

Lemma contained_returned (client : graph_client) (data : list row) :
  contained client data = true →
  Forall returned (settle client <$> (row_value <$> data)).
Proof.
  unfold contained. induction data as [|r data IH]; [constructor |].
  cbn [forallb]. intros [Hr Hdata]%andb_prop. apply negb_true_iff in Hr.
  rewrite !fmap_cons. constructor; [|auto].
  exists (task_value client (row_value r)). by apply settle_contained.
Qed.

Lemma settled_requests (client : graph_client) (sched : list nat)
    (mailboxes : list pyval) :
  requests_of
    (fst (until_failure (completion_order sched (settle client <$> mailboxes))))
  = [].
Proof.
  apply until_failure_requests.
  rewrite completion_order_perm. apply Forall_fmap, Forall_forall.
  intros u _. apply settle_printed.
Qed.

(** The batch returns in every schedule when no exception escapes a task,
    with the results in submission order. *)
Lemma gather_contained (client : graph_client) (sched : list nat)
    (data : list row) (st : state) :
  contained client data = true →
  gather client sched (get_mailbox_audit_settings <$> (row_value <$> data)) st
  = (inr (task_value client <$> (row_value <$> data)),
     State (events st
            ++ ((λ u, Requested (request_path u)) <$> (row_value <$> data))
            ++ fst (until_failure
                      (completion_order sched
                         (settle client <$> (row_value <$> data)))))
       (output_file st)).
Proof.
  intros Hc. rewrite gather_tasks. cbv zeta.
  rewrite (contained_outcomes _ _ Hc), all_results_inr.
  pose proof (contained_returned _ _ Hc) as Hall.
  rewrite <- (completion_order_perm sched) in Hall.
  apply until_failure_None in Hall. by rewrite Hall.
Qed.

(** When an exception escapes a task, the batch raises one that
    [except Exception] does not catch. *)
Lemma gather_escaped (client : graph_client) (sched : list nat)
    (data : list row) (st : state) :
  contained client data = false →
  ∃ e,
    gather client sched (get_mailbox_audit_settings <$> (row_value <$> data)) st
    = (inl e,
       State (events st
              ++ ((λ u, Requested (request_path u)) <$> (row_value <$> data))
              ++ fst (until_failure
                        (completion_order sched
                           (settle client <$> (row_value <$> data)))))
         (output_file st))
    ∧ derives_Exception (exn_class_of e) = false.
Proof.
  intros Hc. rewrite gather_tasks. cbv zeta.
  destruct (snd (until_failure _)) as [e|] eqn:Hu.
  - exists e. split; [done |].
    apply until_failure_Some in Hu as (d & Hd & He).
    rewrite completion_order_perm in Hd.
    apply list_elem_of_fmap in Hd as (u & -> & _).
    revert He. unfold settle. destruct (fetch client u) as [e'|?]; [|done].
    destruct (derives_Exception (exn_class_of e')) eqn:Hder; [done |].
    by intros [= ->].
  - apply until_failure_None in Hu. rewrite completion_order_perm in Hu.
    apply returned_contained in Hu. congruence.
Qed.

(** ** Writing the results *)

Lemma dict_to_list_record (u : pyval) (settings : list (string * pyval)) :
  dict_to_list (audit_record u settings) = inr (audit_row u settings).
Proof. reflexivity. Qed.

Lemma task_value_failed (client : graph_client) (u : pyval) (e : exn) :
  fetch client u = inl e → task_value client u = PyNone.
Proof. unfold task_value. by intros ->. Qed.

Lemma task_value_fetched (client : graph_client) (u : pyval)
    (settings : list (string * pyval)) :
  fetch client u = inr settings →
  task_value client u = audit_record u settings.
Proof. unfold task_value. by intros ->. Qed.

Lemma successes_cons_failed (client : graph_client) (r : row)
    (data : list row) (e : exn) :
  fetch client (row_value r) = inl e →
  successes client (r :: data) = successes client data.
Proof. unfold successes. cbn [omap list_omap]. by intros ->. Qed.

Lemma successes_cons_fetched (client : graph_client) (r : row)
    (data : list row) (settings : list (string * pyval)) :
  fetch client (row_value r) = inr settings →
  successes client (r :: data)
  = (r, audit_row (row_value r) settings) :: successes client data.
Proof. unfold successes. cbn [omap list_omap]. by intros ->. Qed.

Lemma successes_app (client : graph_client) (d1 d2 : list row) :
  successes client (d1 ++ d2) = successes client d1 ++ successes client d2.
Proof. apply omap_app. Qed.

Lemma writerows_results (client : graph_client) (data : list row)
    (evs : list event) (out : string) :
  writerows
    (filter (λ result, truthy result = true)
       (task_value client <$> (row_value <$> data)))
    (State evs (Some out))
  = (inr tt, State evs (Some (out +:+ csv_lines (snd <$> successes client data)))).
Proof.
  revert out. induction data as [|r data IH]; intros out.
  - cbn. by rewrite string_app_nil_r.
  - rewrite !fmap_cons, filter_cons.
    destruct (fetch client (row_value r)) as [e|settings] eqn:Hf.
    + rewrite (task_value_failed _ _ _ Hf), (successes_cons_failed _ _ _ _ Hf).
      rewrite decide_False by done. apply IH.
    + rewrite (task_value_fetched _ _ _ Hf), (successes_cons_fetched _ _ _ _ Hf).
      rewrite decide_True by done. cbn [writerows].
      rewrite dict_to_list_record, fmap_cons. cbn [snd].
      rewrite csv_lines_cons, <- string_app_assoc.
      unfold mbind, prog_mbind, write. cbn [events output_file default].
      apply IH.
Qed.

(** ** The whole run *)

Lemma main_contained (client : graph_client) (header : row) (data : list row)
    (sched : list nat) :
  contained client data = true →
  main client (Some (header :: data)) sched initial_state
  = (inr tt,
     State (((λ u, Requested (request_path u)) <$> (row_value <$> data))
            ++ fst (until_failure
                      (completion_order sched
                         (settle client <$> (row_value <$> data)))))
       (Some (header_line +:+ csv_lines (snd <$> successes client data)))).
Proof.
  intros Hc. unfold main, open_reader, next.
  unfold mbind, prog_mbind, mret, prog_ret.
  rewrite (gather_contained _ _ _ _ Hc).
  unfold open_write, write. cbn [events output_file default initial_state].
  rewrite writerows_results. reflexivity.
Qed.

Lemma main_escaped (client : graph_client) (header : row) (data : list row)
    (sched : list nat) :
  contained client data = false →
  ∃ e,
    main client (Some (header :: data)) sched initial_state
    = (inl e,
       State (((λ u, Requested (request_path u)) <$> (row_value <$> data))
              ++ fst (until_failure
                        (completion_order sched
                           (settle client <$> (row_value <$> data)))))
         None)
    ∧ derives_Exception (exn_class_of e) = false.
Proof.
  intros Hc. unfold main, open_reader, next.
  unfold mbind, prog_mbind, mret, prog_ret.
  destruct (gather_escaped client sched data initial_state Hc) as (e & -> & He).
  by exists e.
Qed.

Lemma not_derived_not_StopIteration (e : exn) :
  derives_Exception (exn_class_of e) = false → is_StopIteration e = false.
Proof. unfold is_StopIteration. by destruct (exn_class_of e). Qed.

Lemma run_contained (client : graph_client) (header : row) (data : list row)
    (sched : list nat) :
  contained client data = true →
  run client (Some (header :: data)) sched
  = (inr tt,
     State (((λ u, Requested (request_path u)) <$> (row_value <$> data))
            ++ fst (until_failure
                      (completion_order sched
                         (settle client <$> (row_value <$> data)))))
       (Some (header_line +:+ csv_lines (snd <$> successes client data)))).
Proof. intros Hc. unfold run. by rewrite main_contained. Qed.

Lemma run_escaped (client : graph_client) (header : row) (data : list row)
    (sched : list nat) :
  contained client data = false →
  ∃ e,
    run client (Some (header :: data)) sched
    = (inl e,
       State (((λ u, Requested (request_path u)) <$> (row_value <$> data))
              ++ fst (until_failure
                        (completion_order sched
                           (settle client <$> (row_value <$> data)))))
         None)
    ∧ derives_Exception (exn_class_of e) = false.
Proof.
  intros Hc. unfold run.
  destruct (main_escaped client header data sched Hc) as (e & -> & He).
  exists e. by rewrite (not_derived_not_StopIteration _ He).
Qed.

(** The output file of a run, in every schedule: the header line and the rows
    of the successful fetches when nothing escapes a task; never opened
    otherwise. *)
Lemma run_output (client : graph_client) (header : row) (data : list row)
    (sched : list nat) :
  output_file (snd (run client (Some (header :: data)) sched))
  = if contained client data
    then Some (header_line +:+ csv_lines (snd <$> successes client data))
    else None.
Proof.
  destruct (contained client data) eqn:Hc.
  - by rewrite run_contained.
  - by destruct (run_escaped client header data sched Hc) as (e & -> & _).
Qed.

Lemma run_requests (client : graph_client) (header : row) (data : list row)
    (sched : list nat) :
  requests_of (events (snd (run client (Some (header :: data)) sched)))
  = request_path <$> (row_value <$> data).
Proof.
  assert (∀ l evs, requests_of evs = [] →
            requests_of (((λ u, Requested (request_path u)) <$> l) ++ evs)
            = request_path <$> l) as Hreq.
  { intros l evs Hevs. unfold requests_of in *. rewrite omap_app, Hevs, app_nil_r.
    induction l as [|u l IH]; [done |]. rewrite !fmap_cons. cbn. by rewrite IH. }
  destruct (contained client data) eqn:Hc.
  - rewrite run_contained by done. apply Hreq, settled_requests.
  - destruct (run_escaped client header data sched Hc) as (e & -> & _).
    apply Hreq, settled_requests.
Qed.

(** * The claims *)

(** ** Failures of a fetch *)

(** C1, as the code has it.  For every identifier of the batch whose fetch
    raises an error derived from [Exception] (the error of [client.get], of
    [json()], or of [settings.get] on a body that is not an object), the task
    calls the client, prints the diagnostic line that names the mailbox and
    the error, and returns [None]: nothing propagates past it.  Provided no
    fetch of the batch raises an exception that is not derived from
    [Exception], [gather] returns a result for every identifier, in every
    schedule, [None] for the failed one, and the run ends without an
    exception.  The status code of a response is never looked at: for every
    response that the client returns without raising and whose body decodes
    to a JSON object, whatever its status code, the task prints nothing and
    returns the populated record. *)
Theorem C1_failure_contained (client : graph_client) (header : row)
    (data : list row) (sched : list nat) (i : nat) (r : row) (e : exn) :
  data !! i = Some r →
  fetch client (row_value r) = inl e →
  derives_Exception (exn_class_of e) = true →
  resume client (get_mailbox_audit_settings (row_value r))
  = ([Requested (request_path (row_value r));
      Printed (error_line (row_value r) e)],
     inr PyNone)
  ∧ (contained client data = true →
     (∀ st, ∃ results,
        fst (gather client sched
               (get_mailbox_audit_settings <$> (row_value <$> data)) st)
        = inr results
        ∧ List.length results = List.length data
        ∧ results !! i = Some PyNone)
     ∧ fst (run client (Some (header :: data)) sched) = inr tt)
  ∧ (∀ (u : pyval) (result : response) (settings : list (string * pyval)),
       client (request_path u) = inr result →
       json result = inr (PyDict settings) →
       resume client (get_mailbox_audit_settings u)
       = ([Requested (request_path u)],
          inr (PyDict [("Mailbox", u);
                       ("AuditEnabled", dict_get settings "auditEnabled");
                       ("AuditLogAgeLimit",
                        dict_get settings "auditLogAgeLimit")]))).
Proof.
  intros Hi Hf He. split; [|split].
  - rewrite task_run. unfold settle. by rewrite Hf, He.
  - intros Hc. split.
    + intros st. eexists. rewrite gather_contained by done. cbn [fst].
      split; [done |]. split; [by rewrite !length_fmap |].
      rewrite !list_lookup_fmap, Hi. cbn.
      by rewrite (task_value_failed _ _ _ Hf).
    + by rewrite run_contained.
  - intros u result settings Hget Hjson.
    rewrite task_run. unfold settle, fetch. by rewrite Hget, Hjson.
Qed.

Lemma C1_failure_contained_witness :
  Scenario.data !! 1%nat = Some Scenario.bob
  ∧ fetch Scenario.client (row_value Scenario.bob) = inl Scenario.not_found
  ∧ derives_Exception (exn_class_of Scenario.not_found) = true
  ∧ resume Scenario.client (get_mailbox_audit_settings (row_value Scenario.bob))
    = ([Requested "/users/['bob@x.com']/mailboxSettings";
        Printed
          "Error getting settings for ['bob@x.com']: 404 Client Error: Not Found"],
       inr PyNone)
  ∧ fst (run Scenario.client (Some Scenario.input) [1%nat]) = inr tt.
Proof.
  assert (Scenario.data !! 1%nat = Some Scenario.bob) as H1 by reflexivity.
  assert (fetch Scenario.client (row_value Scenario.bob)
          = inl Scenario.not_found) as H2 by reflexivity.
  assert (derives_Exception (exn_class_of Scenario.not_found) = true) as H3
    by reflexivity.
  assert (contained Scenario.client Scenario.data = true) as H4
    by reflexivity.
  destruct (C1_failure_contained Scenario.client Scenario.header
              Scenario.data [1%nat] 1 Scenario.bob Scenario.not_found
              H1 H2 H3) as (Htask & Hbatch & _).
  destruct (Hbatch H4) as (_ & Hrun).
  exact (conj H1 (conj H2 (conj H3 (conj Htask Hrun)))).
Defined.

(** C1 as stated fails: a response with a non-2xx status that the client
    returns without raising, and whose body is a JSON object, is not a
    failure for the script.  No diagnostic is printed, the task returns a
    record, and the row is written. *)
Lemma C1_counterexample :
  Scenario.client_404 (request_path (row_value Scenario.bob))
  = inr (Response 404 (inr Scenario.error_body))
  ∧ is_2xx (Response 404 (inr Scenario.error_body)) = false
  ∧ resume Scenario.client_404
      (get_mailbox_audit_settings (row_value Scenario.bob))
    = ([Requested "/users/['bob@x.com']/mailboxSettings"],
       inr (PyDict [("Mailbox", row_value Scenario.bob);
                    ("AuditEnabled", PyNone);
                    ("AuditLogAgeLimit", PyNone)]))
  ∧ output_file
      (snd (run Scenario.client_404 (Some [["Mailbox"]; Scenario.bob]) []))
    = Some (header_line +:+ "['bob@x.com'],," +:+ Csv.crlf).
Proof. repeat split; vm_compute; reflexivity. Qed.

(** ** Loading the identifiers *)

(** C2.  For an input file of a first row and [N] more, the batch is
    [gather] over exactly [N] tasks, one [get_mailbox_audit_settings] for
    each of the rows after the first, in their order; the first row is
    skipped whatever it holds.  The run calls the client exactly [N] times,
    once for each of these rows. *)
Theorem C2_one_task_per_data_row (client : graph_client) (header : row)
    (data : list row) (sched : list nat) :
  main client (Some (header :: data)) sched
  = (results ←
       gather client sched
         (get_mailbox_audit_settings <$> (row_value <$> data));
     _ ← open_write;
     _ ← write header_line;
     writerows (filter (λ result, truthy result = true) results))
  ∧ length (get_mailbox_audit_settings <$> (row_value <$> data)) = length data
  ∧ requests_of (events (snd (run client (Some (header :: data)) sched)))
    = request_path <$> (row_value <$> data)
  ∧ length (requests_of
              (events (snd (run client (Some (header :: data)) sched))))
    = length data.
Proof.
  split; [reflexivity |]. split; [by rewrite !length_fmap |].
  rewrite run_requests. split; [done |]. by rewrite !length_fmap.
Qed.

(** C6.  When [mailboxes.csv] does not exist the run ends with
    [FileNotFoundError]; no call to the client has been made, nothing has
    been printed, and the output file has not been opened. *)
Theorem C6_missing_input (client : graph_client) (sched : list nat) :
  run client None sched
  = (inl (Exn FileNotFoundError
            "[Errno 2] No such file or directory: 'mailboxes.csv'"),
     State [] None).
Proof. reflexivity. Qed.

(** C7.  For an input file that holds a header row only, the run ends
    without an exception, makes no call to the client, and the output file
    is the header line alone. *)
Theorem C7_header_only (client : graph_client) (header : row)
    (sched : list nat) :
  run client (Some [header]) sched
  = (inr tt,
     State [] (Some ("Mailbox,AuditEnabled,AuditLogAgeLimit" +:+ Csv.crlf))).
Proof. reflexivity. Qed.

(** C9.  For an input file with no row at all, skipping the header raises
    [StopIteration]; the run ends with an uncaught error (the [RuntimeError]
    a coroutine turns a [StopIteration] into), no call to the client has
    been made, and the output file has not been opened: no header-only file
    is produced. *)
Theorem C9_empty_input (client : graph_client) (sched : list nat) :
  next [] initial_state = (inl (Exn StopIteration EmptyString), initial_state)
  ∧ run client (Some []) sched
    = (inl (Exn RuntimeError "coroutine raised StopIteration"), State [] None)
  ∧ output_file (snd (run client (Some []) sched)) ≠ Some header_line.
Proof. repeat split. done. Qed.

(** ** Determinism *)

(** C8.  The output file is a function of the input rows and of the client's
    answers: two runs on the same input file and the same answers leave the
    same output file, whatever the order in which the tasks complete. *)
Theorem C8_output_deterministic (client : graph_client)
    (input_file : option (list row)) (sched1 sched2 : list nat) :
  output_file (snd (run client input_file sched1))
  = output_file (snd (run client input_file sched2)).
Proof.
  destruct input_file as [[|header data]|]; [done | | done].
  by rewrite !run_output.
Qed.

(** ** The rows written *)

Lemma csv_lines_app (rows1 rows2 : list (list pyval)) :
  csv_lines (rows1 ++ rows2) = csv_lines rows1 +:+ csv_lines rows2.
Proof.
  induction rows1 as [|fields rows1 IH]; [done |].
  rewrite <- app_comm_cons, !csv_lines_cons, IH. by rewrite string_app_assoc.
Qed.

Lemma row_value_inj (r1 r2 : row) : row_value r1 = row_value r2 → r1 = r2.
Proof.
  unfold row_value. intros [= H]. revert r2 H.
  induction r1 as [|x r1 IH]; intros [|y r2]; try done.
  rewrite !fmap_cons. intros [= -> H]. f_equal. auto.
Qed.

Lemma successes_elem (client : graph_client) (data : list row)
    (p : row * list pyval) :
  p ∈ successes client data ↔
  fst p ∈ data
  ∧ ∃ settings, fetch client (row_value (fst p)) = inr settings
                ∧ snd p = audit_row (row_value (fst p)) settings.
Proof.
  unfold successes. rewrite list_elem_of_omap. split.
  - intros (r & Hr & Hp).
    destruct (fetch client (row_value r)) as [e|settings] eqn:Hf; [done |].
    injection Hp as <-. cbn. split; [done |]. by exists settings.
  - intros (Hr & settings & Hf & Hp). exists (fst p). split; [done |].
    rewrite Hf, <- Hp. by destruct p.
Qed.

Lemma successes_sublist (client : graph_client) (data : list row) :
  (fst <$> successes client data) `sublist_of` data.
Proof.
  induction data as [|r data IH]; [constructor |].
  destruct (fetch client (row_value r)) as [e|settings] eqn:Hf.
  - rewrite (successes_cons_failed _ _ _ _ Hf). by apply sublist_cons.
  - rewrite (successes_cons_fetched _ _ _ _ Hf), fmap_cons. by apply sublist_skip.
Qed.

(** The fields written for a row start with the row itself, as the Python
    list it is. *)
Lemma successes_mailbox (client : graph_client) (data : list row)
    (p : row * list pyval) :
  p ∈ successes client data → snd p !! 0%nat = Some (row_value (fst p)).
Proof. intros (_ & settings & _ & ->)%successes_elem. done. Qed.

Lemma dict_get_absent (settings : list (string * pyval)) (key : string) :
  key ∉ (fst <$> settings) → dict_get settings key = PyNone.
Proof.
  induction settings as [|[k v] settings IH]; [done |].
  rewrite fmap_cons, not_elem_of_cons. cbn. intros [Hk Hrest].
  destruct (String.eqb_spec k key) as [->|_]; [done | auto].
Qed.

(** ** Successful fetches *)

(** C3, as the code has it.  For every row of the input after the first whose
    fetch returns a response with a body that decodes to a JSON object
    (whatever the status code), in a batch where no exception escapes
    [except Exception]: the task returns the record of the three fields
    [Mailbox] (the row as passed), [AuditEnabled] and [AuditLogAgeLimit],
    where a field absent from the body is [None]; the output file holds, in
    the place of that row among the rows of the successful fetches before
    and after it, exactly one line for it; and when the same row occurs
    nowhere else in the input, no other line of the output carries it. *)
Theorem C3_success_row (client : graph_client) (header : row)
    (before : list row) (r : row) (after : list row) (sched : list nat)
    (result : response) (settings : list (string * pyval)) :
  client (request_path (row_value r)) = inr result →
  json result = inr (PyDict settings) →
  contained client (before ++ r :: after) = true →
  resume client (get_mailbox_audit_settings (row_value r))
  = ([Requested (request_path (row_value r))],
     inr (PyDict [("Mailbox", row_value r);
                  ("AuditEnabled", dict_get settings "auditEnabled");
                  ("AuditLogAgeLimit", dict_get settings "auditLogAgeLimit")]))
  ∧ (∀ key, key ∉ (fst <$> settings) → dict_get settings key = PyNone)
  ∧ output_file (snd (run client (Some (header :: before ++ r :: after)) sched))
    = Some (header_line
            +:+ csv_lines (snd <$> successes client before)
            +:+ Csv.writerow [row_value r;
                              dict_get settings "auditEnabled";
                              dict_get settings "auditLogAgeLimit"]
            +:+ csv_lines (snd <$> successes client after))
  ∧ (r ∉ before → r ∉ after →
     ∀ p, p ∈ successes client before ++ successes client after →
          snd p !! 0%nat ≠ Some (row_value r)).
Proof.
  intros Hget Hjson Hc.
  assert (fetch client (row_value r) = inr settings) as Hf.
  { unfold fetch. by rewrite Hget, Hjson. }
  split; [|split; [|split]].
  - rewrite task_run. unfold settle. by rewrite Hf.
  - apply dict_get_absent.
  - rewrite run_output, Hc, successes_app, (successes_cons_fetched _ _ _ _ Hf).
    rewrite fmap_app, fmap_cons, csv_lines_app, csv_lines_cons. done.
  - intros Hb Ha p Hp Hmail.
    assert (fst p ∈ before ++ after) as Hin.
    { apply elem_of_app in Hp as [Hp|Hp]; apply successes_elem in Hp as [? _];
        apply elem_of_app; auto. }
    assert (snd p !! 0%nat = Some (row_value (fst p))) as Hown.
    { apply elem_of_app in Hp as [Hp|Hp]; by eapply successes_mailbox. }
    assert (fst p = r) as Heq by (apply row_value_inj; congruence).
    rewrite Heq in Hin. apply elem_of_app in Hin as [?|?]; done.
Qed.

Lemma C3_success_row_witness :
  Scenario.client (request_path (row_value Scenario.alice))
  = inr (Response 200 (inr Scenario.alice_body))
  ∧ json (Response 200 (inr Scenario.alice_body))
    = inr (PyDict Scenario.alice_settings)
  ∧ contained Scenario.client ([] ++ Scenario.alice :: [Scenario.bob]) = true
  ∧ output_file (snd (run Scenario.client (Some Scenario.input) [1%nat]))
    = Some (header_line +:+ "['alice@x.com'],True,90" +:+ Csv.crlf).
Proof.
  assert (Scenario.client (request_path (row_value Scenario.alice))
          = inr (Response 200 (inr Scenario.alice_body))) as H1
    by reflexivity.
  assert (json (Response 200 (inr Scenario.alice_body))
          = inr (PyDict Scenario.alice_settings)) as H2 by reflexivity.
  assert (contained Scenario.client ([] ++ Scenario.alice :: [Scenario.bob])
          = true) as H3 by reflexivity.
  destruct (C3_success_row Scenario.client Scenario.header [] Scenario.alice
              [Scenario.bob] [1%nat] _ _ H1 H2 H3) as (_ & _ & Hout & _).
  exact (conj H1 (conj H2 (conj H3 Hout))).
Defined.

(** C3 as stated fails.  A 2xx response whose body decodes to JSON that is
    not an object gives no row at all; and an identifier that is on two rows
    of the input gets two rows of the output. *)
Lemma C3_counterexample :
  (Scenario.client_list (request_path (row_value Scenario.alice))
   = inr (Response 200 (inr (PyList [])))
   ∧ is_2xx (Response 200 (inr (PyList []))) = true
   ∧ output_file
       (snd (run Scenario.client_list
               (Some [Scenario.header; Scenario.alice]) []))
     = Some header_line)
  ∧ (Scenario.client_empty (request_path (row_value Scenario.alice))
     = inr (Response 200 (inr (PyDict [])))
     ∧ output_file
         (snd (run Scenario.client_empty
                 (Some [Scenario.header; Scenario.alice; Scenario.alice]) []))
       = Some (header_line +:+ "['alice@x.com'],," +:+ Csv.crlf
               +:+ "['alice@x.com'],," +:+ Csv.crlf)).
Proof. repeat split; vm_compute; reflexivity. Qed.

(** ** The end-to-end scenario *)

(** C4, what the code does.  In the scenario (header [Mailbox], rows
    [alice@x.com] and [bob@x.com], alice's settings returned and a 404 raised
    for bob) the script asks for the path made from the whole row,
    [/users/['alice@x.com']/mailboxSettings], and the output file is the
    header line followed by the one row [['alice@x.com'],True,90]: not the
    expected [alice@x.com,True,90].  A remote service that knows alice by her
    address raises its 404 for both rows and the output is the header alone.
    Whatever the remote service answers, the output file of the script on
    this input is never the expected one. *)
Theorem C4_scenario_output (sched : list nat) :
  run Scenario.client (Some Scenario.input) []
  = (inr tt,
     State [Requested "/users/['alice@x.com']/mailboxSettings";
            Requested "/users/['bob@x.com']/mailboxSettings";
            Printed
              "Error getting settings for ['bob@x.com']: 404 Client Error: Not Found"]
       (Some (header_line +:+ "['alice@x.com'],True,90" +:+ Csv.crlf)))
  ∧ output_file (snd (run Scenario.client (Some Scenario.input) sched))
    = Some (header_line +:+ "['alice@x.com'],True,90" +:+ Csv.crlf)
  ∧ output_file (snd (run Scenario.client_by_address (Some Scenario.input) sched))
    = Some header_line
  ∧ (∀ client : graph_client,
       output_file (snd (run client (Some Scenario.input) sched))
       ≠ Some Scenario.expected_output).
Proof.
  unfold Scenario.input.
  split; [by vm_compute |]. split; [by rewrite run_output |].
  split; [by rewrite run_output |].
  intros client. rewrite run_output.
  destruct (contained client Scenario.data); [|done].
  unfold Scenario.expected_output. intros [= H%string_app_inv_head].
  apply (f_equal head_char) in H. revert H.
  unfold successes, Scenario.data. cbn [omap list_omap].
  destruct (fetch client (row_value Scenario.alice));
    destruct (fetch client (row_value Scenario.bob));
    vm_compute; discriminate.
Qed.

(** ** Order of the output *)

(** C5.  In every schedule [gather] gives the results in submission order,
    and the output file, when the run writes it, is the header line followed
    by the rows of the successful fetches in the order of their input rows,
    the rows of failed fetches being left out in place: the input rows that
    have an output row are a sublist of the input rows. *)
Theorem C5_output_in_input_order (client : graph_client) (header : row)
    (data : list row) (sched : list nat) :
  (∀ st,
     match fst (gather client sched
                  (get_mailbox_audit_settings <$> (row_value <$> data)) st) with
     | inr results => results = task_value client <$> (row_value <$> data)
     | inl _ => contained client data = false
     end)
  ∧ output_file (snd (run client (Some (header :: data)) sched))
    = (if contained client data
       then Some (header_line +:+ csv_lines (snd <$> successes client data))
       else None)
  ∧ (fst <$> successes client data) `sublist_of` data
  ∧ (∀ p, p ∈ successes client data →
          snd p !! 0%nat = Some (row_value (fst p))).
Proof.
  split; [|split; [|split]].
  - intros st. destruct (contained client data) eqn:Hc.
    + by rewrite gather_contained.
    + by destruct (gather_escaped client sched data st Hc) as (e & -> & _).
  - apply run_output.
  - apply successes_sublist.
  - apply successes_mailbox.
Qed.

(** ** A body that is not an object *)

(** C10.  For every fetch that returns a response (2xx or not) whose body is
    valid JSON but not an object, [settings.get] raises [AttributeError]
    inside the [try] block; it is caught, the diagnostic is printed, the task
    returns [None], and no row of the output file is for that identifier. *)
Theorem C10_non_object_body (client : graph_client) (header : row)
    (data : list row) (sched : list nat) (r : row) (result : response)
    (settings : pyval) :
  client (request_path (row_value r)) = inr result →
  json result = inr settings →
  is_dict settings = false →
  method_get settings "auditEnabled" = inl (no_attribute settings "get")
  ∧ resume client (get_mailbox_audit_settings (row_value r))
    = ([Requested (request_path (row_value r));
        Printed (error_line (row_value r) (no_attribute settings "get"))],
       inr PyNone)
  ∧ output_file (snd (run client (Some (header :: data)) sched))
    = (if contained client data
       then Some (header_line +:+ csv_lines (snd <$> successes client data))
       else None)
  ∧ (∀ p, p ∈ successes client data →
          fst p ≠ r ∧ snd p !! 0%nat ≠ Some (row_value r)).
Proof.
  intros Hget Hjson Hdict.
  assert (fetch client (row_value r) = inl (no_attribute settings "get"))
    as Hf.
  { unfold fetch. rewrite Hget, Hjson. by destruct settings. }
  split; [by destruct settings |]. split; [|split].
  - rewrite task_run. unfold settle. by rewrite Hf.
  - apply run_output.
  - intros p Hp.
    assert (fst p ≠ r) as Hne.
    { apply successes_elem in Hp as (_ & d & Hd & _). intros Heq.
      rewrite Heq, Hf in Hd. done. }
    split; [done |]. rewrite (successes_mailbox _ _ _ Hp).
    intros Heq. apply Hne, row_value_inj. congruence.
Qed.

Lemma C10_non_object_body_witness :
  Scenario.client_list (request_path (row_value Scenario.alice))
  = inr (Response 200 (inr (PyList [])))
  ∧ json (Response 200 (inr (PyList []))) = inr (PyList [])
  ∧ is_dict (PyList []) = false
  ∧ resume Scenario.client_list
      (get_mailbox_audit_settings (row_value Scenario.alice))
    = ([Requested "/users/['alice@x.com']/mailboxSettings";
        Printed
          "Error getting settings for ['alice@x.com']: 'list' object has no attribute 'get'"],
       inr PyNone)
  ∧ output_file (snd (run Scenario.client_list (Some Scenario.input) []))
    = Some header_line.
Proof.
  assert (Scenario.client_list (request_path (row_value Scenario.alice))
          = inr (Response 200 (inr (PyList [])))) as H1 by reflexivity.
  assert (json (Response 200 (inr (PyList []))) = inr (PyList [])) as H2
    by reflexivity.
  assert (is_dict (PyList []) = false) as H3 by reflexivity.
  destruct (C10_non_object_body Scenario.client_list Scenario.header
              Scenario.data [] Scenario.alice _ _ H1 H2 H3)
    as (_ & Htask & Hout & _).
  exact (conj H1 (conj H2 (conj H3 (conj Htask Hout)))).
Defined.

(** * Further properties of the script *)

(** ** One task *)

(** Whatever the client does, a task calls it exactly once, for the path of
    its identifier, and prints at most one line; it returns [None] exactly
    when it has printed a diagnostic, and a value it returns that is not
    [None] passes the filter of [main]. *)
Theorem task_accounting (client : graph_client) (u : pyval) :
  let done := resume client (get_mailbox_audit_settings u) in
  requests_of (fst done) = [request_path u]
  ∧ (List.length (printed_of (fst done)) ≤ 1)%nat
  ∧ (snd done = inr PyNone ↔ ∃ e, printed_of (fst done) = [error_line u e])
  ∧ (∀ v, snd done = inr v → v = PyNone ∨ truthy v = true).
Proof.
  cbv zeta. rewrite task_run. unfold settle. cbn [fst snd].
  destruct (fetch client u) as [e|settings];
    [destruct (derives_Exception (exn_class_of e))|]; cbn.
  - repeat split; eauto. intros v [= <-]. by left.
  - repeat split; [lia | done | by intros [? ?] | done].
  - repeat split; [lia | done | by intros [? ?] |]. intros v [= <-]. by right.
Qed.

(** ** Exceptions that [except Exception] lets through *)

Lemma escaping_not_contained (client : graph_client) (data : list row)
    (i : nat) (r : row) (e : exn) :
  data !! i = Some r →
  fetch client (row_value r) = inl e →
  derives_Exception (exn_class_of e) = false →
  contained client data = false.
Proof.
  intros Hi Hf He. apply not_true_is_false. intros Hc.
  unfold contained in Hc. rewrite forallb_forall in Hc.
  assert (In r data) as Hin by (apply list_elem_of_In; eapply list_elem_of_lookup_2; eauto).
  specialize (Hc r Hin). unfold escapes in Hc. rewrite Hf, He in Hc. done.
Qed.

(** When the fetch of one row of the batch raises an exception that does not
    derive from [Exception], the task prints nothing and lets it through;
    the run ends with an exception of that kind, and the output file has not
    been opened. *)
Theorem escaping_exception_aborts (client : graph_client) (header : row)
    (data : list row) (sched : list nat) (i : nat) (r : row) (e : exn) :
  data !! i = Some r →
  fetch client (row_value r) = inl e →
  derives_Exception (exn_class_of e) = false →
  resume client (get_mailbox_audit_settings (row_value r))
  = ([Requested (request_path (row_value r))], inl e)
  ∧ (∃ e', fst (run client (Some (header :: data)) sched) = inl e'
           ∧ derives_Exception (exn_class_of e') = false)
  ∧ output_file (snd (run client (Some (header :: data)) sched)) = None.
Proof.
  intros Hi Hf He.
  pose proof (escaping_not_contained _ _ _ _ _ Hi Hf He) as Hc.
  split; [|split].
  - rewrite task_run. unfold settle. by rewrite Hf, He.
  - destruct (run_escaped client header data sched Hc) as (e' & -> & He').
    by exists e'.
  - by rewrite run_output, Hc.
Qed.

Lemma escaping_exception_aborts_witness :
  Scenario.data !! 1%nat = Some Scenario.bob
  ∧ fetch Cases.client_cancelled (row_value Scenario.bob) = inl Cases.cancelled
  ∧ derives_Exception (exn_class_of Cases.cancelled) = false
  ∧ output_file
      (snd (run Cases.client_cancelled (Some Scenario.input) [])) = None.
Proof.
  assert (Scenario.data !! 1%nat = Some Scenario.bob) as H1 by reflexivity.
  assert (fetch Cases.client_cancelled (row_value Scenario.bob)
          = inl Cases.cancelled) as H2 by reflexivity.
  assert (derives_Exception (exn_class_of Cases.cancelled) = false) as H3
    by reflexivity.
  destruct (escaping_exception_aborts Cases.client_cancelled Scenario.header
              Scenario.data [] 1 Scenario.bob Cases.cancelled H1 H2 H3)
    as (_ & _ & Hout).
  exact (conj H1 (conj H2 (conj H3 Hout))).
Defined.

(** ** The diagnostics of a batch *)








(** ** The outcomes of a run *)

Lemma writerow_nonempty (fields : list pyval) :
  Csv.writerow fields ≠ EmptyString.
Proof.
  unfold Csv.writerow.
  destruct (match fields with [_] => _ | _ => _ end) as [|c line];
    [by vm_compute | by rewrite string_app_cons].
Qed.

Lemma csv_lines_empty (rows : list (list pyval)) :
  csv_lines rows = EmptyString ↔ rows = [].
Proof.
  split; [|by intros ->]. destruct rows as [|fields rows]; [done |].
  rewrite csv_lines_cons. intros H. exfalso.
  apply (writerow_nonempty fields).
  destruct (Csv.writerow fields); [done |]. by rewrite string_app_cons in H.
Qed.

Lemma successes_none (client : graph_client) (data : list row) :
  successes client data = [] ↔
  ∀ r, r ∈ data → ∃ e, fetch client (row_value r) = inl e.
Proof.
  induction data as [|r data IH].
  - split; [|done]. intros _ r' Hr'. by apply elem_of_nil in Hr'.
  - destruct (fetch client (row_value r)) as [e|settings] eqn:Hf.
    + rewrite (successes_cons_failed _ _ _ _ Hf), IH. split.
      * intros H r' [->|Hr']%elem_of_cons; eauto.
      * intros H r' Hr'. apply H. by apply list_elem_of_further.
    + rewrite (successes_cons_fetched _ _ _ _ Hf). split; [done |].
      intros H. destruct (H r) as [e He]; [apply list_elem_of_here |].
      congruence.
Qed.

(** In a batch where no exception escapes a task, the output file is the
    header line alone exactly when every fetch has failed: a successful
    fetch always leaves a row, whatever its settings are. *)
Theorem header_only_iff_all_failed (client : graph_client) (header : row)
    (data : list row) (sched : list nat) :
  contained client data = true →
  output_file (snd (run client (Some (header :: data)) sched))
  = Some header_line
  ↔ ∀ r, r ∈ data → ∃ e, fetch client (row_value r) = inl e.
Proof.
  intros Hc. rewrite run_output, Hc, <- successes_none. split.
  - intros H%(inj Some). rewrite <- (string_app_nil_r header_line) in H at 2.
    apply string_app_inv_head, csv_lines_empty in H.
    by apply fmap_nil_inv in H.
  - intros ->. cbn. by rewrite string_app_nil_r.
Qed.

Lemma header_only_iff_all_failed_witness :
  contained Cases.client_down Scenario.data = true
  ∧ (output_file (snd (run Cases.client_down (Some Scenario.input) [1%nat]))
     = Some header_line
     ↔ ∀ r, r ∈ Scenario.data →
            ∃ e, fetch Cases.client_down (row_value r) = inl e).
Proof.
  assert (contained Cases.client_down Scenario.data = true) as H1
    by reflexivity.
  exact (conj H1 (header_only_iff_all_failed Cases.client_down
                    Scenario.header Scenario.data [1%nat] H1)).
Defined.

(** ** What the run does not depend on *)

Lemma fetch_same (client1 client2 : graph_client) (u : pyval) :
  same_answers client1 client2 → fetch client1 u = fetch client2 u.
Proof.
  intros H. specialize (H (request_path u)). unfold fetch.
  destruct (client1 (request_path u)) as [e1|result1],
    (client2 (request_path u)) as [e2|result2]; try done.
  - by rewrite H.
  - by rewrite H.
Qed.

Lemma gather_same (client1 client2 : graph_client) (sched : list nat)
    (mailboxes : list pyval) (st : state) :
  same_answers client1 client2 →
  gather client1 sched (get_mailbox_audit_settings <$> mailboxes) st
  = gather client2 sched (get_mailbox_audit_settings <$> mailboxes) st.
Proof.
  intros H. rewrite !gather_tasks.
  assert (settle client1 <$> mailboxes = settle client2 <$> mailboxes) as ->.
  { apply list_fmap_ext. intros _ u _. unfold settle.
    by rewrite (fetch_same _ _ u H). }
  done.
Qed.

(** The script looks at nothing of a response but its [json()]: two clients
    that raise the same exceptions and return responses with the same bodies,
    whatever their status codes, give the same run: the same outcome, the
    same requests and diagnostics, the same output file. *)
Theorem status_never_inspected (client1 client2 : graph_client)
    (input_file : option (list row)) (sched : list nat) :
  same_answers client1 client2 →
  run client1 input_file sched = run client2 input_file sched.
Proof.
  intros H. destruct input_file as [[|header data]|]; [done | | done].
  unfold run, main, open_reader, next.
  unfold mbind, prog_mbind, mret, prog_ret.
  by rewrite (gather_same _ _ _ _ _ H).
Qed.

Lemma status_never_inspected_witness :
  same_answers Scenario.client_404 Cases.client_200
  ∧ run Scenario.client_404 (Some Scenario.input) []
    = run Cases.client_200 (Some Scenario.input) [].
Proof.
  assert (same_answers Scenario.client_404 Cases.client_200) as H1
    by (intros path; reflexivity).
  exact (conj H1 (status_never_inspected Scenario.client_404 Cases.client_200
                    (Some Scenario.input) [] H1)).
Defined.

Lemma contained_app (client : graph_client) (d1 d2 : list row) :
  contained client (d1 ++ d2) = contained client d1 && contained client d2.
Proof. unfold contained. apply forallb_app. Qed.

Lemma contained_cons (client : graph_client) (r : row) (data : list row) :
  contained client (r :: data)
  = negb (escapes client (row_value r)) && contained client data.
Proof. reflexivity. Qed.

(** A row whose fetch fails with an exception derived from [Exception]
    leaves nothing in the output file: the file is the one the run writes
    when that row is taken out of the input. *)
Theorem failed_row_leaves_no_trace (client : graph_client) (header : row)
    (before : list row) (r : row) (after : list row) (sched : list nat)
    (e : exn) :
  fetch client (row_value r) = inl e →
  derives_Exception (exn_class_of e) = true →
  output_file (snd (run client (Some (header :: before ++ r :: after)) sched))
  = output_file (snd (run client (Some (header :: before ++ after)) sched)).
Proof.
  intros Hf He. rewrite !run_output, !contained_app, contained_cons.
  rewrite !successes_app, (successes_cons_failed _ _ _ _ Hf).
  unfold escapes. by rewrite Hf, He.
Qed.

Lemma failed_row_leaves_no_trace_witness :
  fetch Scenario.client (row_value Scenario.bob) = inl Scenario.not_found
  ∧ derives_Exception (exn_class_of Scenario.not_found) = true
  ∧ output_file
      (snd (run Scenario.client
              (Some (Scenario.header :: [Scenario.alice] ++ Scenario.bob :: []))
              []))
    = output_file
        (snd (run Scenario.client
                (Some (Scenario.header :: [Scenario.alice] ++ [])) [])).
Proof.
  assert (fetch Scenario.client (row_value Scenario.bob)
          = inl Scenario.not_found) as H1 by reflexivity.
  assert (derives_Exception (exn_class_of Scenario.not_found) = true) as H2
    by reflexivity.
  exact (conj H1 (conj H2
           (failed_row_leaves_no_trace Scenario.client Scenario.header
              [Scenario.alice] Scenario.bob [] [] Scenario.not_found H1 H2))).
Defined.

(** ** Runs on longer inputs *)

(** The rows written for an input are those written for its first part
    followed by those written for the rest: when the runs on two inputs
    write a file each, the run on the rows of the first followed by the rows
    of the second writes the header line, the data lines of the first file
    and the data lines of the second. *)
Theorem output_of_concatenation (client : graph_client)
    (header1 header2 header : row) (data1 data2 : list row)
    (sched1 sched2 sched : list nat) (lines1 lines2 : string) :
  output_file (snd (run client (Some (header1 :: data1)) sched1))
  = Some (header_line +:+ lines1) →
  output_file (snd (run client (Some (header2 :: data2)) sched2))
  = Some (header_line +:+ lines2) →
  output_file (snd (run client (Some (header :: data1 ++ data2)) sched))
  = Some (header_line +:+ lines1 +:+ lines2).
Proof.
  rewrite !run_output, contained_app.
  destruct (contained client data1); [|done].
  destruct (contained client data2); [|done].
  intros H1%(inj Some)%string_app_inv_head H2%(inj Some)%string_app_inv_head.
  by rewrite successes_app, fmap_app, csv_lines_app, H1, H2.
Qed.

Lemma output_of_concatenation_witness :
  output_file
    (snd (run Scenario.client (Some (Scenario.header :: [Scenario.alice])) []))
  = Some (header_line +:+ "['alice@x.com'],True,90" +:+ Csv.crlf)
  ∧ output_file
      (snd (run Scenario.client (Some (Scenario.header :: [Scenario.alice])) []))
    = Some (header_line +:+ "['alice@x.com'],True,90" +:+ Csv.crlf)
  ∧ output_file
      (snd (run Scenario.client
              (Some (Scenario.header :: [Scenario.alice] ++ [Scenario.alice]))
              []))
    = Some (header_line
            +:+ ("['alice@x.com'],True,90" +:+ Csv.crlf)
            +:+ "['alice@x.com'],True,90" +:+ Csv.crlf).
Proof.
  assert (output_file
            (snd (run Scenario.client
                    (Some (Scenario.header :: [Scenario.alice])) []))
          = Some (header_line +:+ "['alice@x.com'],True,90" +:+ Csv.crlf))
    as H1 by reflexivity.
  exact (conj H1 (conj H1
           (output_of_concatenation Scenario.client Scenario.header
              Scenario.header Scenario.header [Scenario.alice]
              [Scenario.alice] [] [] [] _ _ H1 H1))).
Defined.

(** ** Settings that are not in the body *)

Lemma writerow_no_settings (u : pyval) :
  Csv.writerow [u; PyNone; PyNone] = Csv.field u +:+ ",," +:+ Csv.crlf.
Proof.
  unfold Csv.writerow. cbn [fmap list_fmap String.concat].
  change (Csv.field PyNone) with EmptyString.
  change (str1 comma +:+ EmptyString +:+ str1 comma +:+ EmptyString)
    with ",,".
  by rewrite string_app_assoc.
Qed.

(** A response whose body is a JSON object with neither [auditEnabled] nor
    [auditLogAgeLimit] is a success: its row is written, with the identifier
    and two empty cells. *)
Theorem absent_settings_empty_cells (client : graph_client) (header : row)
    (before : list row) (r : row) (after : list row) (sched : list nat)
    (result : response) (settings : list (string * pyval)) :
  client (request_path (row_value r)) = inr result →
  json result = inr (PyDict settings) →
  "auditEnabled" ∉ (fst <$> settings) →
  "auditLogAgeLimit" ∉ (fst <$> settings) →
  contained client (before ++ r :: after) = true →
  output_file (snd (run client (Some (header :: before ++ r :: after)) sched))
  = Some (header_line
          +:+ csv_lines (snd <$> successes client before)
          +:+ (Csv.field (row_value r) +:+ ",," +:+ Csv.crlf)
          +:+ csv_lines (snd <$> successes client after)).
Proof.
  intros Hget Hjson Henabled Hlimit Hc.
  assert (fetch client (row_value r) = inr settings) as Hf.
  { unfold fetch. by rewrite Hget, Hjson. }
  rewrite run_output, Hc, successes_app, (successes_cons_fetched _ _ _ _ Hf).
  rewrite fmap_app, fmap_cons, csv_lines_app, csv_lines_cons. cbn [snd].
  unfold audit_row.
  rewrite (dict_get_absent _ _ Henabled), (dict_get_absent _ _ Hlimit).
  by rewrite writerow_no_settings.
Qed.

Lemma absent_settings_empty_cells_witness :
  Scenario.client_empty (request_path (row_value Scenario.alice))
  = inr (Response 200 (inr (PyDict [])))
  ∧ json (Response 200 (inr (PyDict []))) = inr (PyDict [])
  ∧ contained Scenario.client_empty ([] ++ Scenario.alice :: []) = true
  ∧ output_file
      (snd (run Scenario.client_empty
              (Some (Scenario.header :: [] ++ Scenario.alice :: [])) []))
    = Some (header_line +:+ "['alice@x.com'],," +:+ Csv.crlf).
Proof.
  assert (Scenario.client_empty (request_path (row_value Scenario.alice))
          = inr (Response 200 (inr (PyDict [])))) as H1 by reflexivity.
  assert (json (Response 200 (inr (PyDict []))) = inr (PyDict [])) as H2
    by reflexivity.
  assert ("auditEnabled" ∉ (fst <$> @nil (string * pyval))) as H3
    by apply not_elem_of_nil.
  assert ("auditLogAgeLimit" ∉ (fst <$> @nil (string * pyval))) as H4
    by apply not_elem_of_nil.
  assert (contained Scenario.client_empty ([] ++ Scenario.alice :: [])
          = true) as H5 by reflexivity.
  exact (conj H1 (conj H2 (conj H5
           (absent_settings_empty_cells Scenario.client_empty Scenario.header
              [] Scenario.alice [] [] _ _ H1 H2 H3 H4 H5)))).
Defined.

(** ** The identifier is the whole row *)

Lemma string_length_app (a b : string) :
  String.length (a +:+ b) = (String.length a + String.length b)%nat.
Proof.
  induction a as [|c a IH]; [done |].
  rewrite string_app_cons. cbn [String.length]. by rewrite IH.
Qed.

Lemma repr_chars_length (quote : ascii) (s : string) :
  (String.length s ≤ String.length (repr_chars quote s))%nat.
Proof.
  induction s as [|c s IH]; [done |].
  cbn [repr_chars String.length]. rewrite string_length_app.
  assert (1 ≤ String.length (repr_char quote c))%nat; [|lia].
  unfold repr_char.
  repeat (match goal with |- context [if ?b then _ else _] => destruct b end);
    cbn; lia.
Qed.

Lemma repr_str_length (s : string) :
  (String.length s + 2 ≤ String.length (repr_str s))%nat.
Proof.
  unfold repr_str. cbn [String.length]. rewrite string_length_app.
  pose proof (repr_chars_length (repr_quote s) s). cbn [str1 String.length].
  lia.
Qed.

Lemma concat_head_length (sep x : string) (l : list string) :
  (String.length x ≤ String.length (String.concat sep (x :: l)))%nat.
Proof.
  destruct l as [|y l]; [done |].
  cbn [String.concat]. rewrite string_length_app. lia.
Qed.

Lemma str_row_length (a : string) (rest : row) :
  (String.length a + 4 ≤ String.length (str (row_value (a :: rest))))%nat.
Proof.
  unfold row_value. rewrite fmap_cons. cbn [str repr map].
  rewrite string_app_cons. cbn [String.length]. rewrite !string_length_app.
  pose proof (concat_head_length ", " (repr_str a) (map repr (PyStr <$> rest))).
  pose proof (repr_str_length a). cbn [String.length]. lia.
Qed.

Lemma double_quotes_length (s : string) :
  (String.length s ≤ String.length (Csv.double_quotes s))%nat.
Proof.
  induction s as [|c s IH]; [done |]. cbn [Csv.double_quotes].
  destruct (Ascii.eqb c dquote); cbn [String.length]; lia.
Qed.

Lemma field_row_length (a : string) (rest : row) :
  (String.length a + 4 ≤ String.length (Csv.field (row_value (a :: rest))))%nat.
Proof.
  pose proof (str_row_length a rest) as Hstr.
  unfold Csv.field.
  change (Csv.field_text (row_value (a :: rest)))
    with (str (row_value (a :: rest))).
  destruct (Csv.needs_quote _); [|done].
  unfold Csv.quoted. cbn [String.length]. rewrite string_length_app.
  pose proof (double_quotes_length (str (row_value (a :: rest)))). lia.
Qed.

(** For every row that has a first column, the path the script requests is
    not the path of the user named in that column, and the [Mailbox] cell it
    writes for the row is not that name: both carry the row as Python shows
    a list, brackets and quotes included. *)
Theorem row_is_not_its_address (a : string) (rest : row) :
  request_path (row_value (a :: rest)) ≠ user_path a
  ∧ Csv.field (row_value (a :: rest)) ≠ a
  ∧ head_char (str (row_value (a :: rest))) = Some "["%char.
Proof.
  split; [|split].
  - intros H. apply (f_equal String.length) in H. revert H.
    unfold request_path, user_path. rewrite !string_length_app.
    pose proof (str_row_length a rest). lia.
  - intros H. pose proof (field_row_length a rest) as Hlen.
    rewrite H in Hlen. lia.
  - reflexivity.
Qed.
